(** * Sliding-window rate limiter (src/main.py)

    A shallow embedding of the [RateLimiter] class and of the two code paths
    that query it: [RateLimiter.is_allowed] (check and record) and the body of
    the [/status] route, [rate_limit_status] (report only); and of the
    dependency of the [/protected] route, [check_rate_limit], with the
    handler of the exception it raises, [rate_limit_handler].

    Modelling choices.
    - [time.time()] is an input: every operation takes the instant it reads
      from the clock as its argument [current_time].
    - Python floats are modelled as exact rationals [Q]; the rounding of
      float arithmetic is not modelled.  [int(x)] on a float truncates
      toward zero and is [py_int].
    - [self.requests] is a [defaultdict(list)]: a [gmap] from keys to lists,
      where reading a missing key stores and returns the empty list.
    - [min] of an empty list raises [ValueError]; an operation returns an
      [outcome] together with the state it leaves behind. *)

From Stdlib Require Import ZArith QArith Qround Qminmax Lia Lqa List DecimalString.
From stdpp Require Import gmap strings.
Import ListNotations.

Local Open Scope Z_scope.

(** ** Python values *)

Inductive exn : Type := ValueError.

Inductive outcome (A : Type) : Type :=
| Return (a : A)
| Raise (e : exn).
Arguments Return {A} a.
Arguments Raise {A} e.

(** [int(x)] for a float [x]: truncation toward zero. *)
Definition py_int (x : Q) : Z := Z.quot (Qnum x) (Z.pos (Qden x)).

(** [x > y] and [x < y] on floats. *)
Definition Qgtb (x y : Q) : bool := negb (Qle_bool x y).
Definition Qltb (x y : Q) : bool := negb (Qle_bool y x).

(** [min(l)]: the first smallest element, [ValueError] on the empty list. *)
Fixpoint min_from (m : Q) (l : list Q) : Q :=
  match l with
  | [] => m
  | x :: l' => min_from (if Qltb x m then x else m) l'
  end.

Definition py_min (l : list Q) : outcome Q :=
  match l with
  | [] => Raise ValueError
  | x :: l' => Return (min_from x l')
  end.

(** ** The limiter state *)

Record RateLimiter : Type := mkRateLimiter {
  requests : gmap string (list Q);
  max_requests : Z;
  time_window : Z
}.

(** [RateLimiter.__init__] *)
Definition RateLimiter_init : RateLimiter :=
  {| requests := ∅; max_requests := 5; time_window := 60 |}.

Definition set_requests (self : RateLimiter) (d : gmap string (list Q)) : RateLimiter :=
  {| requests := d; max_requests := max_requests self; time_window := time_window self |}.

(** [d[k]] on a [defaultdict(list)]: a missing key is created with []. *)
Definition getitem (d : gmap string (list Q)) (k : string)
  : list Q * gmap string (list Q) :=
  match d !! k with
  | Some l => (l, d)
  | None => ([], <[k := []]> d)
  end.

(** [d[k].append(x)] on a [defaultdict(list)]. *)
Definition append_at (d : gmap string (list Q)) (k : string) (x : Q)
  : gmap string (list Q) :=
  let '(l, d') := getitem d k in <[k := l ++ [x]]> d'.

(** The list a key holds, as a reader sees it (empty when never seen). *)
Definition stored (self : RateLimiter) (k : string) : list Q :=
  default [] (requests self !! k).

(** [[r for r in l if r > cutoff_time]] *)
Definition in_window (cutoff_time : Q) (l : list Q) : list Q :=
  List.filter (fun req_time => Qgtb req_time cutoff_time) l.

(** ** [RateLimiter.is_allowed] *)

Record rate_info : Type := mkInfo {
  allowed : bool;
  requests_made : Z;
  requests_remaining : Z;
  reset_time : Z;
  retry_after : option Z
}.

Definition is_allowed (self : RateLimiter) (current_time : Q) (client_ip : string)
  : outcome (bool * rate_info) * RateLimiter :=
  let '(request_times, d1) := getitem (requests self) client_ip in
  let cutoff_time := (current_time - inject_Z (time_window self))%Q in
  let active := in_window cutoff_time request_times in
  let d2 := <[client_ip := active]> d1 in
  let current_request_count := Z.of_nat (length active) in
  if current_request_count <? max_requests self then
    let d3 := append_at d2 client_ip current_time in
    let remaining_requests := max_requests self - (current_request_count + 1) in
    (Return (true,
             {| allowed := true;
                requests_made := current_request_count + 1;
                requests_remaining := remaining_requests;
                reset_time := py_int (current_time + inject_Z (time_window self))%Q;
                retry_after := None |}),
     set_requests self d3)
  else
    match py_min active with
    | Raise e => (Raise e, set_requests self d2)
    | Return oldest_request =>
        let retry :=
          py_int ((oldest_request + inject_Z (time_window self)) - current_time)%Q in
        (Return (false,
                 {| allowed := false;
                    requests_made := current_request_count;
                    requests_remaining := 0;
                    reset_time := py_int (oldest_request + inject_Z (time_window self))%Q;
                    retry_after := Some (Z.max 1 retry) |}),
         set_requests self d2)
    end.

(** ** [rate_limit_status], the body of the [/status] route *)

Record rate_limit : Type := mkRateLimit {
  rl_max_requests : Z;
  rl_time_window : Z;
  rl_requests_made : Z;
  rl_requests_remaining : Z;
  rl_reset_time : Z;
  rl_window_resets_in : Z
}.

Record status : Type := mkStatus {
  st_client_ip : string;
  st_rate_limit : rate_limit;
  st_timestamp : Q
}.

Definition rate_limit_status (rate_limiter : RateLimiter) (current_time : Q)
    (client_ip : string) : status * RateLimiter :=
  let '(request_times, d1) := getitem (requests rate_limiter) client_ip in
  let cutoff_time := (current_time - inject_Z (time_window rate_limiter))%Q in
  let active_requests := in_window cutoff_time request_times in
  let remaining_requests :=
    max_requests rate_limiter - Z.of_nat (length active_requests) in
  let reset :=
    match active_requests with
    | [] => py_int (current_time + inject_Z (time_window rate_limiter))%Q
    | x :: l' => py_int (min_from x l' + inject_Z (time_window rate_limiter))%Q
    end in
  ({| st_client_ip := client_ip;
      st_rate_limit :=
        {| rl_max_requests := max_requests rate_limiter;
           rl_time_window := time_window rate_limiter;
           rl_requests_made := Z.of_nat (length active_requests);
           rl_requests_remaining := Z.max 0 remaining_requests;
           rl_reset_time := reset;
           rl_window_resets_in := Z.max 0 (reset - py_int current_time) |};
      st_timestamp := current_time |},
   set_requests rate_limiter d1).

(** ** Runs of calls *)

(** [evaluate_n n]: [n] calls of [is_allowed] for one key at one instant;
    the outcomes in call order and the final state. *)
Fixpoint evaluate_n (n : nat) (self : RateLimiter) (current_time : Q)
    (client_ip : string) : list (outcome (bool * rate_info)) * RateLimiter :=
  match n with
  | O => ([], self)
  | S n' =>
      let '(r, self') := is_allowed self current_time client_ip in
      let '(rs, self'') := evaluate_n n' self' current_time client_ip in
      (r :: rs, self'')
  end.

(** [peeks ts]: one [rate_limit_status] call for the key at each instant of
    [ts], in order; the state left behind. *)
Fixpoint peeks (ts : list Q) (self : RateLimiter) (client_ip : string) : RateLimiter :=
  match ts with
  | [] => self
  | t :: ts' => peeks ts' (snd (rate_limit_status self t client_ip)) client_ip
  end.

(** The verdict of an outcome, when there is one. *)
Definition verdict (r : outcome (bool * rate_info)) : option bool :=
  match r with
  | Return (b, _) => Some b
  | Raise _ => None
  end.

Definition info_of (r : outcome (bool * rate_info)) : option rate_info :=
  match r with
  | Return (_, i) => Some i
  | Raise _ => None
  end.

(** The in-window part of what a key holds at [current_time]: the list
    both operations count. *)
Definition active_of (self : RateLimiter) (current_time : Q) (k : string) : list Q :=
  in_window (current_time - inject_Z (time_window self))%Q (stored self k).

(** No stored timestamp of the key is at or before the cutoff. *)
Definition fresh_at (self : RateLimiter) (now : Q) (k : string) : Prop :=
  Forall (fun x => (now - inject_Z (time_window self) < x)%Q) (stored self k).

(** States the program can be in: built by [__init__], then changed only by
    the two operations. *)
Inductive reachable : RateLimiter -> Prop :=
| reach_init : reachable RateLimiter_init
| reach_is_allowed self t k :
    reachable self -> reachable (snd (is_allowed self t k))
| reach_status self t k :
    reachable self -> reachable (snd (rate_limit_status self t k)).

(** The state after five allowed calls for key [k] at instant [t] on a
    new limiter: the quota of [k] is used up. *)
Definition exhausted (t : Q) (k : string) : RateLimiter :=
  snd (evaluate_n 5 RateLimiter_init t k).

(** The state after one allowed call for key [k] at instant [t]. *)
Definition visited (t : Q) (k : string) : RateLimiter :=
  snd (is_allowed RateLimiter_init t k).

(** ** The specification's formulas, as they are worded

    These follow the specification's sentences, not the source; they are
    compared with the code below. *)

(** [round(x)] of Python 3: to the nearest integer, a tie to the even one. *)
Definition py_round (x : Q) : Z :=
  let f := Qfloor x in
  match (x - inject_Z f ?= 1 # 2)%Q with
  | Lt => f
  | Gt => f + 1
  | Eq => if Z.even f then f else f + 1
  end.


(** No stale entry is stored after either operation, as worded. *)
Definition no_stale_as_worded (self : RateLimiter) (now : Q) (k : string) : Prop :=
  fresh_at (snd (is_allowed self now k)) now k /\
  fresh_at (snd (rate_limit_status self now k)) now k.


(** ** The [/protected] route: [check_rate_limit] and its 429 handler *)

(** [str(n)] for an int: its decimal digits, with a minus sign when negative. *)
Definition py_str (n : Z) : string := NilZero.string_of_int (Z.to_int n).

(** [str(x)] for a value that is an int or [None], as the f-string and
    [str(rate_info['retry_after'])] render it. *)
Definition py_str_opt (x : option Z) : string :=
  match x with
  | Some n => py_str n
  | None => "None"
  end.

(** The [detail] dict of the exception. *)
Record error_detail : Type := mkDetail {
  error : string;
  message : string;
  rate_limit_info : rate_info
}.

(** [HTTPException(status_code, detail, headers)]; the headers dict keeps
    the order in which its keys are written. *)
Record HTTPException : Type := mkHTTPException {
  exc_status_code : Z;
  exc_detail : error_detail;
  exc_headers : list (string * string)
}.

(** What [check_rate_limit] can raise: its own [HTTPException], or the
    error [is_allowed] raised. *)
Inductive raised : Type :=
| RaisedHTTP (e : HTTPException)
| RaisedError (e : exn).

(** [check_rate_limit]; [client_ip] is [request.client.host]. *)
Definition check_rate_limit (rate_limiter : RateLimiter) (current_time : Q)
    (client_ip : string) : (rate_info + raised) * RateLimiter :=
  match is_allowed rate_limiter current_time client_ip with
  | (Raise e, rate_limiter') => (inr (RaisedError e), rate_limiter')
  | (Return (is_allowed_, rate_info_), rate_limiter') =>
      if negb is_allowed_ then
        (inr (RaisedHTTP
           {| exc_status_code := 429;
              exc_detail :=
                {| error := "Rate limit exceeded";
                   message := "Too many requests. Try again in "
                              +:+ py_str_opt (retry_after rate_info_)
                              +:+ " seconds.";
                   rate_limit_info := rate_info_ |};
              exc_headers :=
                [("X-RateLimit-Limit", py_str (max_requests rate_limiter));
                 ("X-RateLimit-Remaining", py_str (requests_remaining rate_info_));
                 ("X-RateLimit-Reset", py_str (reset_time rate_info_));
                 ("Retry-After", py_str_opt (retry_after rate_info_))] |}),
         rate_limiter')
      else (inl rate_info_, rate_limiter')
  end.

(** [JSONResponse(status_code, content, headers)] *)
Record JSONResponse : Type := mkJSONResponse {
  resp_status_code : Z;
  resp_content : error_detail;
  resp_headers : list (string * string)
}.

(** [rate_limit_handler] *)
Definition rate_limit_handler (exc : HTTPException) : JSONResponse :=
  {| resp_status_code := 429;
     resp_content := exc_detail exc;
     resp_headers := exc_headers exc |}.

(** The value a header dict holds for a name. *)
Fixpoint header (name : string) (hs : list (string * string)) : option string :=
  match hs with
  | [] => None
  | (n, v) :: hs' => if String.eqb name n then Some v else header name hs'
  end.

(** ** Runs of both operations under a clock *)

Inductive event : Type :=
| Request (t : Q) (k : string)
| Status (t : Q) (k : string).


(** [serve evs]: the events of [evs] handled in order, a [Request] by
    [is_allowed] and a [Status] by [rate_limit_status]; the instant, key and
    outcome of each [Request] in order, and the final state. *)
Fixpoint serve (evs : list event) (self : RateLimiter)
  : list (Q * string * outcome (bool * rate_info)) * RateLimiter :=
  match evs with
  | [] => ([], self)
  | Request t k :: evs' =>
      let '(r, self') := is_allowed self t k in
      let '(log, self'') := serve evs' self' in
      ((t, k, r) :: log, self'')
  | Status t k :: evs' => serve evs' (snd (rate_limit_status self t k))
  end.




(** ** Lemmas on the Python values *)

Lemma Qgtb_lt (x y : Q) : Qgtb x y = true <-> (y < x)%Q.
Proof.
  unfold Qgtb. rewrite negb_true_iff, <- not_true_iff_false, Qle_bool_iff.
  split; [apply Qnot_le_lt | apply Qlt_not_le].
Qed.

Lemma Qltb_lt (x y : Q) : Qltb x y = true <-> (x < y)%Q.
Proof. unfold Qltb. apply Qgtb_lt. Qed.

Lemma Qltb_ge (x y : Q) : Qltb x y = false <-> (y <= x)%Q.
Proof.
  unfold Qltb. rewrite negb_false_iff. apply Qle_bool_iff.
Qed.

Lemma min_from_In (m : Q) (l : list Q) : In (min_from m l) (m :: l).
Proof.
  revert m. induction l as [|x l IH]; intros m; simpl.
  - now left.
  - destruct (IH (if Qltb x m then x else m)) as [E|E].
    + rewrite <- E. destruct (Qltb x m); [right; now left | now left].
    + right. now right.
Qed.

Lemma min_from_le_start (m : Q) (l : list Q) : (min_from m l <= m)%Q.
Proof.
  revert m. induction l as [|x l IH]; intros m; simpl.
  - apply Qle_refl.
  - eapply Qle_trans; [apply IH|].
    destruct (Qltb x m) eqn:E; [|apply Qle_refl].
    apply Qlt_le_weak. now apply Qltb_lt.
Qed.

Lemma min_from_le (m : Q) (l : list Q) (y : Q) :
  In y (m :: l) -> (min_from m l <= y)%Q.
Proof.
  revert m. induction l as [|x l IH]; intros m H; simpl in *.
  - destruct H as [<-|[]]. apply Qle_refl.
  - destruct H as [<-|[<-|H]].
    + eapply Qle_trans; [apply min_from_le_start|].
      destruct (Qltb x m) eqn:C; [|apply Qle_refl].
      apply Qlt_le_weak. now apply Qltb_lt.
    + eapply Qle_trans; [apply min_from_le_start|].
      destruct (Qltb x m) eqn:C; [apply Qle_refl | now apply Qltb_ge].
    + apply IH. now right.
Qed.

(** [min] returns an element of the list that is below all the others. *)
Lemma py_min_spec (l : list Q) (m : Q) :
  py_min l = Return m -> In m l /\ forall y, In y l -> (m <= y)%Q.
Proof.
  destruct l as [|x l]; simpl; [discriminate|].
  intros [= <-]. split; [apply min_from_In | apply min_from_le].
Qed.

Lemma py_min_nonempty (l : list Q) :
  l <> [] -> exists m, py_min l = Return m.
Proof. destruct l; [congruence | eauto]. Qed.

Lemma in_window_In (c x : Q) (l : list Q) :
  In x (in_window c l) <-> In x l /\ (c < x)%Q.
Proof. unfold in_window. rewrite filter_In, Qgtb_lt. reflexivity. Qed.

Lemma in_window_length (c : Q) (l : list Q) :
  (length (in_window c l) <= length l)%nat.
Proof. apply List.filter_length_le. Qed.

Lemma in_window_app (c : Q) (l1 l2 : list Q) :
  in_window c (l1 ++ l2) = in_window c l1 ++ in_window c l2.
Proof. apply List.filter_app. Qed.

Lemma in_window_idem (c : Q) (l : list Q) :
  in_window c (in_window c l) = in_window c l.
Proof.
  unfold in_window. induction l as [|x l IH]; simpl; [reflexivity|].
  destruct (Qgtb x c) eqn:E; simpl; [rewrite E, IH|]; auto.
Qed.

(** One element at or before the cutoff makes the pruned list shorter. *)
Lemma in_window_drops (c x : Q) (l : list Q) :
  In x l -> (x <= c)%Q -> (length (in_window c l) < length l)%nat.
Proof.
  unfold in_window. induction l as [|y l IH]; simpl; [tauto|].
  intros [E|E] Hx.
  - subst y. destruct (Qgtb x c) eqn:G.
    + apply Qgtb_lt in G. exfalso. eapply Qlt_not_le; eauto.
    + pose proof (List.filter_length_le (fun r => Qgtb r c) l). lia.
  - specialize (IH E Hx). destruct (Qgtb y c); simpl; lia.
Qed.

(** ** Lemmas on the dictionary *)

Lemma getitem_fst (d : gmap string (list Q)) (k : string) :
  fst (getitem d k) = default [] (d !! k).
Proof. unfold getitem. destruct (d !! k); reflexivity. Qed.

Lemma insert_getitem (d : gmap string (list Q)) (k : string) (l : list Q) :
  <[k := l]> (snd (getitem d k)) = <[k := l]> d.
Proof.
  unfold getitem. destruct (d !! k); simpl; [reflexivity|].
  apply insert_insert_eq.
Qed.

Lemma getitem_lookup_ne (d : gmap string (list Q)) (k k' : string) :
  k <> k' -> snd (getitem d k) !! k' = d !! k'.
Proof.
  intros Hne. unfold getitem. destruct (d !! k); simpl; [reflexivity|].
  now apply lookup_insert_ne.
Qed.

Lemma getitem_default (d : gmap string (list Q)) (k k' : string) :
  default [] (snd (getitem d k) !! k') = default [] (d !! k').
Proof.
  unfold getitem. destruct (d !! k) eqn:E; simpl; [reflexivity|].
  destruct (decide (k = k')) as [<-|Hne].
  - now rewrite lookup_insert_eq, E.
  - now rewrite lookup_insert_ne.
Qed.

Lemma append_at_insert (d : gmap string (list Q)) (k : string) (l : list Q) (x : Q) :
  append_at (<[k := l]> d) k x = <[k := l ++ [x]]> d.
Proof.
  unfold append_at, getitem. rewrite lookup_insert_eq.
  apply insert_insert_eq.
Qed.

(** ** The two operations, with the dictionary accesses resolved *)

Lemma is_allowed_unfold (self : RateLimiter) (t : Q) (k : string) :
  is_allowed self t k =
  let active := active_of self t k in
  let n := Z.of_nat (length active) in
  if n <? max_requests self then
    (Return (true,
             {| allowed := true;
                requests_made := n + 1;
                requests_remaining := max_requests self - (n + 1);
                reset_time := py_int (t + inject_Z (time_window self))%Q;
                retry_after := None |}),
     set_requests self (<[k := active ++ [t]]> (requests self)))
  else
    match py_min active with
    | Raise e => (Raise e, set_requests self (<[k := active]> (requests self)))
    | Return oldest =>
        (Return (false,
                 {| allowed := false;
                    requests_made := n;
                    requests_remaining := 0;
                    reset_time := py_int (oldest + inject_Z (time_window self))%Q;
                    retry_after :=
                      Some (Z.max 1 (py_int ((oldest + inject_Z (time_window self)) - t)%Q)) |}),
         set_requests self (<[k := active]> (requests self)))
    end.
Proof.
  unfold is_allowed, active_of, stored.
  rewrite <- (getitem_fst (requests self) k).
  pose proof (insert_getitem (requests self) k) as Hins.
  destruct (getitem (requests self) k) as [request_times d1]. simpl in *.
  rewrite append_at_insert, !Hins. reflexivity.
Qed.

Lemma rate_limit_status_unfold (self : RateLimiter) (t : Q) (k : string) :
  rate_limit_status self t k =
  let active := active_of self t k in
  let reset :=
    match active with
    | [] => py_int (t + inject_Z (time_window self))%Q
    | x :: l' => py_int (min_from x l' + inject_Z (time_window self))%Q
    end in
  ({| st_client_ip := k;
      st_rate_limit :=
        {| rl_max_requests := max_requests self;
           rl_time_window := time_window self;
           rl_requests_made := Z.of_nat (length active);
           rl_requests_remaining :=
             Z.max 0 (max_requests self - Z.of_nat (length active));
           rl_reset_time := reset;
           rl_window_resets_in := Z.max 0 (reset - py_int t) |};
      st_timestamp := t |},
   set_requests self (snd (getitem (requests self) k))).
Proof.
  unfold rate_limit_status, active_of, stored.
  rewrite <- (getitem_fst (requests self) k).
  destruct (getitem (requests self) k) as [request_times d1]. reflexivity.
Qed.

Lemma is_allowed_config (self : RateLimiter) (t : Q) (k : string) :
  max_requests (snd (is_allowed self t k)) = max_requests self /\
  time_window (snd (is_allowed self t k)) = time_window self.
Proof.
  rewrite is_allowed_unfold. cbv zeta.
  destruct (_ <? _); [|destruct (py_min _)]; split; reflexivity.
Qed.

Lemma rate_limit_status_config (self : RateLimiter) (t : Q) (k : string) :
  max_requests (snd (rate_limit_status self t k)) = max_requests self /\
  time_window (snd (rate_limit_status self t k)) = time_window self.
Proof. rewrite rate_limit_status_unfold. split; reflexivity. Qed.

(** What the key holds after [is_allowed]: the pruned list, with the
    current time at its end exactly when the count was below the limit. *)
Lemma is_allowed_stored (self : RateLimiter) (t : Q) (k : string) :
  stored (snd (is_allowed self t k)) k =
  if Z.of_nat (length (active_of self t k)) <? max_requests self
  then active_of self t k ++ [t]
  else active_of self t k.
Proof.
  rewrite is_allowed_unfold. cbv zeta. unfold stored.
  destruct (_ <? _); [|destruct (py_min _)]; simpl;
    now rewrite lookup_insert_eq.
Qed.

Lemma is_allowed_lookup_ne (self : RateLimiter) (t : Q) (k k' : string) :
  k <> k' -> requests (snd (is_allowed self t k)) !! k' = requests self !! k'.
Proof.
  intros Hne. rewrite is_allowed_unfold. cbv zeta.
  destruct (_ <? _); [|destruct (py_min _)]; simpl;
    now rewrite lookup_insert_ne.
Qed.

(** [rate_limit_status] stores nothing but the empty list of a key it had
    never seen: every key reads as before. *)
Lemma rate_limit_status_stored (self : RateLimiter) (t : Q) (k k' : string) :
  stored (snd (rate_limit_status self t k)) k' = stored self k'.
Proof.
  rewrite rate_limit_status_unfold. unfold stored. simpl.
  apply getitem_default.
Qed.

(** The configuration never changes, so it is the one of [__init__]. *)
Lemma reachable_config (self : RateLimiter) :
  reachable self -> max_requests self = 5 /\ time_window self = 60.
Proof.
  induction 1 as [|self t k _ [IH1 IH2]|self t k _ [IH1 IH2]].
  - split; reflexivity.
  - destruct (is_allowed_config self t k) as [-> ->]. now split.
  - destruct (rate_limit_status_config self t k) as [-> ->]. now split.
Qed.

(** Scenario A of the specification, run on the embedding. *)
Example scenario_A_remaining :
  map (fun r => option_map requests_remaining (info_of r))
      (fst (evaluate_n 6 RateLimiter_init 0%Q "1.2.3.4"))
  = [Some 4; Some 3; Some 2; Some 1; Some 0; Some 0].
Proof. vm_compute. reflexivity. Qed.

Example scenario_A_verdicts :
  map verdict (fst (evaluate_n 6 RateLimiter_init 0%Q "1.2.3.4"))
  = [Some true; Some true; Some true; Some true; Some true; Some false].
Proof. vm_compute. reflexivity. Qed.

(** ** Frame properties *)

Lemma peeks_stored (ts : list Q) (self : RateLimiter) (k k' : string) :
  stored (peeks ts self k) k' = stored self k'.
Proof.
  revert self. induction ts as [|t ts IH]; intros self; simpl; [reflexivity|].
  rewrite IH. apply rate_limit_status_stored.
Qed.

Lemma peeks_config (ts : list Q) (self : RateLimiter) (k : string) :
  max_requests (peeks ts self k) = max_requests self /\
  time_window (peeks ts self k) = time_window self.
Proof.
  revert self. induction ts as [|t ts IH]; intros self; simpl; [now split|].
  destruct (IH (snd (rate_limit_status self t k))) as [-> ->].
  apply rate_limit_status_config.
Qed.

(** Writing the key after any number of status calls gives the dictionary
    that writing it at once gives. *)
Lemma peeks_insert (ts : list Q) (self : RateLimiter) (k : string) (l : list Q) :
  <[k := l]> (requests (peeks ts self k)) = <[k := l]> (requests self).
Proof.
  revert self. induction ts as [|t ts IH]; intros self; simpl; [reflexivity|].
  rewrite IH, rate_limit_status_unfold. simpl. apply insert_getitem.
Qed.

Lemma set_requests_ext (s1 s2 : RateLimiter) (d : gmap string (list Q)) :
  max_requests s1 = max_requests s2 -> time_window s1 = time_window s2 ->
  set_requests s1 d = set_requests s2 d.
Proof. unfold set_requests. now intros -> ->. Qed.

(** C4. Status calls ([peek]) for a key, any number of them and at any
    instants, append no timestamp (every key reads as before them), and the
    next [is_allowed] ([evaluate]) for that key gives the same outcome, with
    the same verdict and the same info, and leaves the same state as if the
    status calls had not happened. *)
Theorem C4_peek_non_mutation (ts : list Q) (self : RateLimiter) (t : Q) (k : string) :
  (forall k', stored (peeks ts self k) k' = stored self k') /\
  is_allowed (peeks ts self k) t k = is_allowed self t k.
Proof.
  split; [intros k'; apply peeks_stored|].
  destruct (peeks_config ts self k) as [Hm Hw].
  rewrite !is_allowed_unfold. unfold active_of.
  rewrite peeks_stored, Hm, Hw, !peeks_insert.
  rewrite !(set_requests_ext (peeks ts self k) self) by assumption.
  reflexivity.
Qed.

(** C6. For two distinct keys [a] and [b], [is_allowed] for [a] leaves the
    entry of [b] in the dictionary as it was, and any later [is_allowed] or
    status call for [b] returns the same result (verdict and every info
    field) as without the call for [a]. *)
Theorem C6_independence (self : RateLimiter) (t : Q) (a b : string) :
  a <> b ->
  let self' := snd (is_allowed self t a) in
  requests self' !! b = requests self !! b /\
  stored self' b = stored self b /\
  forall t',
    fst (is_allowed self' t' b) = fst (is_allowed self t' b) /\
    fst (rate_limit_status self' t' b) = fst (rate_limit_status self t' b).
Proof.
  intros Hne self'.
  assert (Hl : requests self' !! b = requests self !! b)
    by now apply is_allowed_lookup_ne.
  assert (Hs : stored self' b = stored self b) by (unfold stored; now rewrite Hl).
  destruct (is_allowed_config self t a) as [Hm Hw]. fold self' in Hm, Hw.
  split; [exact Hl|]. split; [exact Hs|]. intros t'. split.
  - rewrite !is_allowed_unfold. unfold active_of. rewrite Hs, Hm, Hw. cbv zeta.
    destruct (_ <? _); [reflexivity|]. destruct (py_min _); reflexivity.
  - rewrite !rate_limit_status_unfold. unfold active_of. rewrite Hs, Hm, Hw.
    reflexivity.
Qed.

Lemma C6_independence_witness :
  "A" <> "B" /\
  let self' := snd (is_allowed (exhausted 0 "A") 0 "A") in
  requests self' !! "B" = requests (exhausted 0 "A") !! "B" /\
  stored self' "B" = stored (exhausted 0 "A") "B" /\
  forall t',
    fst (is_allowed self' t' "B") = fst (is_allowed (exhausted 0 "A") t' "B") /\
    fst (rate_limit_status self' t' "B")
    = fst (rate_limit_status (exhausted 0 "A") t' "B").
Proof.
  assert (H : "A" <> "B") by discriminate.
  split; [exact H|]. exact (C6_independence (exhausted 0 "A") 0 "A" "B" H).
Defined.

(** ** Length of the stored list *)

(** C7. If the key holds at most [max_requests] timestamps before
    [is_allowed], it holds at most [max_requests] after it: the current time
    is appended only when the pruned count is strictly below the limit. *)
Theorem C7_length_bounded (self : RateLimiter) (t : Q) (k : string) :
  Z.of_nat (length (stored self k)) <= max_requests self ->
  Z.of_nat (length (stored (snd (is_allowed self t k)) k)) <= max_requests self.
Proof.
  intros Hlen. rewrite is_allowed_stored.
  pose proof (in_window_length (t - inject_Z (time_window self))%Q (stored self k)) as Hle.
  fold (active_of self t k) in Hle.
  destruct (Z.ltb_spec (Z.of_nat (length (active_of self t k))) (max_requests self)).
  - rewrite length_app. simpl. lia.
  - lia.
Qed.

Lemma C7_length_bounded_witness :
  Z.of_nat (length (stored (exhausted 0 "1.2.3.4") "1.2.3.4"))
    <= max_requests (exhausted 0 "1.2.3.4") /\
  Z.of_nat (length (stored (snd (is_allowed (exhausted 0 "1.2.3.4") 0 "1.2.3.4"))
                           "1.2.3.4"))
    <= max_requests (exhausted 0 "1.2.3.4").
Proof.
  assert (H : Z.of_nat (length (stored (exhausted 0 "1.2.3.4") "1.2.3.4"))
              <= max_requests (exhausted 0 "1.2.3.4"))
    by (vm_compute; discriminate).
  split; [exact H|]. exact (C7_length_bounded _ 0%Q "1.2.3.4" H).
Defined.

(** ** Outcome of [is_allowed] *)

(** With a positive limit the denial branch always finds a minimum. *)
Lemma deny_has_oldest (self : RateLimiter) (t : Q) (k : string) :
  0 < max_requests self ->
  max_requests self <= Z.of_nat (length (active_of self t k)) ->
  exists oldest, py_min (active_of self t k) = Return oldest.
Proof.
  intros Hpos Hge. apply py_min_nonempty. intros E. rewrite E in Hge.
  simpl in Hge. lia.
Qed.

(** C8. With the limit positive (it is 5), [is_allowed] always returns a
    verdict and an info, never an error.  When the verdict is [true] the key
    holds its pruned list with exactly one more timestamp, the current time,
    at the end; when it is [false] the key holds its pruned list and nothing
    was appended.  No other key and no parameter changes. *)
Theorem C8_append_only_on_allow (self : RateLimiter) (t : Q) (k : string) :
  0 < max_requests self ->
  exists b info,
    fst (is_allowed self t k) = Return (b, info) /\
    allowed info = b /\
    stored (snd (is_allowed self t k)) k
    = (if b then active_of self t k ++ [t] else active_of self t k) /\
    (forall k', k <> k' ->
       requests (snd (is_allowed self t k)) !! k' = requests self !! k') /\
    max_requests (snd (is_allowed self t k)) = max_requests self /\
    time_window (snd (is_allowed self t k)) = time_window self.
Proof.
  intros Hpos.
  pose proof (is_allowed_stored self t k) as Hst.
  pose proof (is_allowed_config self t k) as [Hm Hw].
  pose proof (fun k' => is_allowed_lookup_ne self t k k') as Hne.
  revert Hst Hm Hw Hne. rewrite is_allowed_unfold. cbv zeta.
  destruct (Z.ltb_spec (Z.of_nat (length (active_of self t k))) (max_requests self))
    as [Hlt|Hge].
  - intros Hst Hm Hw Hne. eexists true, _. repeat split; eauto.
  - destruct (deny_has_oldest self t k Hpos Hge) as [oldest ->].
    intros Hst Hm Hw Hne. eexists false, _. repeat split; eauto.
Qed.

Lemma C8_append_only_on_allow_witness :
  0 < max_requests (exhausted 0 "1.2.3.4") /\
  exists b info,
    fst (is_allowed (exhausted 0 "1.2.3.4") 0 "1.2.3.4") = Return (b, info) /\
    allowed info = b /\
    stored (snd (is_allowed (exhausted 0 "1.2.3.4") 0 "1.2.3.4")) "1.2.3.4"
    = (if b then active_of (exhausted 0 "1.2.3.4") 0 "1.2.3.4" ++ [0%Q]
       else active_of (exhausted 0 "1.2.3.4") 0 "1.2.3.4") /\
    (forall k', "1.2.3.4" <> k' ->
       requests (snd (is_allowed (exhausted 0 "1.2.3.4") 0 "1.2.3.4")) !! k'
       = requests (exhausted 0 "1.2.3.4") !! k') /\
    max_requests (snd (is_allowed (exhausted 0 "1.2.3.4") 0 "1.2.3.4"))
    = max_requests (exhausted 0 "1.2.3.4") /\
    time_window (snd (is_allowed (exhausted 0 "1.2.3.4") 0 "1.2.3.4"))
    = time_window (exhausted 0 "1.2.3.4").
Proof.
  assert (H : 0 < max_requests (exhausted 0 "1.2.3.4")) by reflexivity.
  split; [exact H|]. exact (C8_append_only_on_allow _ 0%Q "1.2.3.4" H).
Defined.

(** ** Capacity *)

Lemma inject_Z_pos (w : Z) : 0 < w -> (0 < inject_Z w)%Q.
Proof. intros H. change 0%Q with (inject_Z 0). now rewrite <- Zlt_Qlt. Qed.


Lemma active_of_idem (self self' : RateLimiter) (t : Q) (k : string) (l : list Q) :
  time_window self' = time_window self ->
  stored self' k = active_of self t k ++ l ->
  active_of self' t k
  = active_of self t k ++ in_window (t - inject_Z (time_window self))%Q l.
Proof.
  intros Hw Hs. unfold active_of at 1. rewrite Hs, Hw, in_window_app.
  unfold active_of. now rewrite in_window_idem.
Qed.







(** ** Sliding eviction *)

(** C2. If the key holds [max_requests] timestamps and the oldest of them is
    at or before [t - time_window], then [is_allowed] at [t] returns [true]:
    the timestamps at or before the cutoff are pruned and are not counted;
    [requests_made] is the number of the remaining ones plus one, and the key
    then holds the remaining ones followed by [t]. *)
Theorem C2_sliding_eviction (self : RateLimiter) (t : Q) (k : string) (oldest : Q) :
  Z.of_nat (length (stored self k)) = max_requests self ->
  py_min (stored self k) = Return oldest ->
  (oldest <= t - inject_Z (time_window self))%Q ->
  verdict (fst (is_allowed self t k)) = Some true /\
  option_map requests_made (info_of (fst (is_allowed self t k)))
  = Some (Z.of_nat (length (active_of self t k)) + 1) /\
  stored (snd (is_allowed self t k)) k = active_of self t k ++ [t] /\
  (forall x, In x (active_of self t k) <->
             (In x (stored self k) /\ (t - inject_Z (time_window self) < x)%Q)).
Proof.
  intros Hlen Hmin Hold.
  destruct (py_min_spec _ _ Hmin) as [Hin _].
  pose proof (in_window_drops _ _ _ Hin Hold) as Hdrop.
  fold (active_of self t k) in Hdrop.
  assert (Hlt : (Z.of_nat (length (active_of self t k)) <? max_requests self) = true)
    by (apply Z.ltb_lt; lia).
  pose proof (is_allowed_stored self t k) as Hst. rewrite Hlt in Hst.
  split; [|split; [|split]].
  - rewrite is_allowed_unfold. cbv zeta. now rewrite Hlt.
  - rewrite is_allowed_unfold. cbv zeta. now rewrite Hlt.
  - exact Hst.
  - intros x. apply in_window_In.
Qed.

Lemma C2_sliding_eviction_witness :
  Z.of_nat (length (stored (exhausted 0 "1.2.3.4") "1.2.3.4"))
  = max_requests (exhausted 0 "1.2.3.4") /\
  py_min (stored (exhausted 0 "1.2.3.4") "1.2.3.4") = Return 0%Q /\
  (0 <= 61 - inject_Z (time_window (exhausted 0 "1.2.3.4")))%Q /\
  verdict (fst (is_allowed (exhausted 0 "1.2.3.4") 61 "1.2.3.4")) = Some true.
Proof.
  assert (H1 : Z.of_nat (length (stored (exhausted 0 "1.2.3.4") "1.2.3.4"))
               = max_requests (exhausted 0 "1.2.3.4")) by (vm_compute; reflexivity).
  assert (H2 : py_min (stored (exhausted 0 "1.2.3.4") "1.2.3.4") = Return 0%Q)
    by (vm_compute; reflexivity).
  assert (H3 : (0 <= 61 - inject_Z (time_window (exhausted 0 "1.2.3.4")))%Q)
    by (vm_compute; discriminate).
  split; [exact H1|]. split; [exact H2|]. split; [exact H3|].
  exact (proj1 (C2_sliding_eviction _ 61%Q "1.2.3.4" 0%Q H1 H2 H3)).
Defined.

(** ** The info of a denial *)

Lemma is_allowed_denied (self : RateLimiter) (t : Q) (k : string) (info : rate_info) :
  fst (is_allowed self t k) = Return (false, info) ->
  exists oldest,
    py_min (active_of self t k) = Return oldest /\
    max_requests self <= Z.of_nat (length (active_of self t k)) /\
    info = {| allowed := false;
              requests_made := Z.of_nat (length (active_of self t k));
              requests_remaining := 0;
              reset_time := py_int (oldest + inject_Z (time_window self))%Q;
              retry_after :=
                Some (Z.max 1 (py_int ((oldest + inject_Z (time_window self)) - t)%Q)) |}.
Proof.
  rewrite is_allowed_unfold. cbv zeta.
  destruct (Z.ltb_spec (Z.of_nat (length (active_of self t k))) (max_requests self))
    as [Hlt|Hge]; simpl; [discriminate|].
  destruct (py_min (active_of self t k)) as [oldest|e]; simpl; [|discriminate].
  intros [= <-]. exists oldest. auto.
Qed.




(** ** Bound on [retry_after] *)

Lemma py_int_floor (x : Q) : (0 <= x)%Q -> py_int x = Qfloor x.
Proof.
  destruct x as [n d]. unfold Qle, py_int, Qfloor. simpl. intros H.
  apply Z.quot_div_nonneg; lia.
Qed.




(** ** Stale entries *)

Lemma active_of_fresh (self : RateLimiter) (now : Q) (k : string) :
  Forall (fun x => (now - inject_Z (time_window self) < x)%Q) (active_of self now k).
Proof.
  apply List.Forall_forall. intros x Hx. now apply in_window_In in Hx.
Qed.

(** C5 (amended). With a positive window (it is 60), after [is_allowed] at
    [now] every timestamp the key holds is strictly greater than
    [now - time_window].  The status call prunes a local copy only: the key
    holds after it exactly what it held before, and the count it reports is
    the one of the pruned copy, all of whose entries are in the window. *)
Theorem C5_fresh_after_evaluate (self : RateLimiter) (now : Q) (k : string) :
  0 < time_window self ->
  fresh_at (snd (is_allowed self now k)) now k /\
  stored (snd (rate_limit_status self now k)) k = stored self k /\
  rl_requests_made (st_rate_limit (fst (rate_limit_status self now k)))
  = Z.of_nat (length (active_of self now k)) /\
  Forall (fun x => (now - inject_Z (time_window self) < x)%Q) (active_of self now k).
Proof.
  intros Hw. split; [|split; [|split]].
  - unfold fresh_at. destruct (is_allowed_config self now k) as [_ ->].
    rewrite is_allowed_stored. pose proof (active_of_fresh self now k) as Hf.
    destruct (_ <? _); [|exact Hf].
    apply Forall_app. split; [exact Hf|]. constructor; [|constructor].
    apply inject_Z_pos in Hw. lra.
  - apply rate_limit_status_stored.
  - rewrite rate_limit_status_unfold. reflexivity.
  - apply active_of_fresh.
Qed.

Lemma C5_fresh_after_evaluate_witness :
  0 < time_window (visited 0 "a") /\
  fresh_at (snd (is_allowed (visited 0 "a") 100 "a")) 100 "a" /\
  stored (snd (rate_limit_status (visited 0 "a") 100 "a")) "a" = [0%Q].
Proof.
  assert (H : 0 < time_window (visited 0 "a")) by reflexivity.
  destruct (C5_fresh_after_evaluate (visited 0 "a") 100%Q "a" H) as (H1 & H2 & _).
  split; [exact H|]. split; [exact H1|]. exact H2.
Defined.

(** C5 as worded fails for the status call: after one allowed call at 0, a
    status call at 100 leaves the timestamp 0 stored, and 0 is not greater
    than 100 - 60. *)
Lemma C5_as_worded_fails : ~ no_stale_as_worded (visited 0 "a") 100 "a".
Proof.
  intros [_ H]. unfold fresh_at in H.
  rewrite rate_limit_status_stored in H.
  change (stored (visited 0 "a") "a") with [0%Q] in H.
  apply Forall_inv in H. vm_compute in H. discriminate.
Qed.

(** ** The status report *)




Example status_after_one_call :
  st_rate_limit (fst (rate_limit_status (visited (9 # 10) "a") (11 # 10) "a"))
  = {| rl_max_requests := 5; rl_time_window := 60; rl_requests_made := 1;
       rl_requests_remaining := 4; rl_reset_time := 60; rl_window_resets_in := 59 |}.
Proof. vm_compute. reflexivity. Qed.

Example denial_after_five_calls :
  fst (is_allowed (exhausted (1 # 10) "a") (2 # 5) "a")
  = Return (false, {| allowed := false; requests_made := 5; requests_remaining := 0;
                      reset_time := 60; retry_after := Some 59 |}).
Proof. vm_compute. reflexivity. Qed.

Example round_of_the_wait : py_round ((1 # 10) + 60 - (2 # 5))%Q = 60.
Proof. reflexivity. Qed.

(** In every state the program reaches, [is_allowed] returns a verdict. *)
Lemma reachable_never_raises (self : RateLimiter) (t : Q) (k : string) :
  reachable self -> exists b info, fst (is_allowed self t k) = Return (b, info).
Proof.
  intros Hr. destruct (reachable_config self Hr) as [Hm _].
  rewrite is_allowed_unfold. cbv zeta.
  destruct (Z.ltb_spec (Z.of_nat (length (active_of self t k))) (max_requests self))
    as [Hlt|Hge]; [eauto|].
  destruct (deny_has_oldest self t k) as [oldest ->]; [lia | assumption | eauto].
Qed.

(** ** Further properties of [is_allowed] *)

(** The two ways a call can go, by the pruned count. *)
Lemma is_allowed_cases (self : RateLimiter) (t : Q) (k : string) :
  (Z.of_nat (length (active_of self t k)) < max_requests self /\
   verdict (fst (is_allowed self t k)) = Some true /\
   stored (snd (is_allowed self t k)) k = active_of self t k ++ [t]) \/
  (max_requests self <= Z.of_nat (length (active_of self t k)) /\
   verdict (fst (is_allowed self t k)) <> Some true /\
   stored (snd (is_allowed self t k)) k = active_of self t k).
Proof.
  pose proof (is_allowed_stored self t k) as Hst. revert Hst.
  rewrite is_allowed_unfold. cbv zeta.
  destruct (Z.ltb_spec (Z.of_nat (length (active_of self t k))) (max_requests self))
    as [Hlt|Hge]; intros Hst.
  - left. auto.
  - right. destruct (py_min _); simpl; repeat split; auto; discriminate.
Qed.

(** X1. [is_allowed] raises [ValueError] exactly when the limit is not
    positive and the key has nothing in the window (the denial branch then
    takes [min] of an empty list); the key is left holding the empty list. *)
Theorem is_allowed_raises_iff (self : RateLimiter) (t : Q) (k : string) :
  (fst (is_allowed self t k) = Raise ValueError <->
   (max_requests self <= 0 /\ active_of self t k = [])) /\
  (fst (is_allowed self t k) = Raise ValueError ->
   stored (snd (is_allowed self t k)) k = []).
Proof.
  pose proof (is_allowed_stored self t k) as Hst. revert Hst.
  rewrite is_allowed_unfold. cbv zeta.
  destruct (Z.ltb_spec (Z.of_nat (length (active_of self t k))) (max_requests self))
    as [Hlt|Hge].
  - intros _. split; [split|]; simpl; try discriminate.
    intros [Hm He]. rewrite He in Hlt. simpl in Hlt. lia.
  - destruct (active_of self t k) as [|x l] eqn:E; simpl in *.
    + intros Hst. split; [split|].
      * intros _. split; [lia | reflexivity].
      * reflexivity.
      * intros _. exact Hst.
    + intros _. split; [split|]; try discriminate. intros [_ H]. discriminate.
Qed.

(** X2. A denial changes nothing that a second call can see: when
    [is_allowed] returns [false], calling it again at the same instant gives
    the same outcome and the same state.  Denied calls are not recorded. *)
Theorem denial_idempotent (self : RateLimiter) (t : Q) (k : string) :
  verdict (fst (is_allowed self t k)) = Some false ->
  is_allowed (snd (is_allowed self t k)) t k = is_allowed self t k.
Proof.
  intros Hv.
  destruct (is_allowed_cases self t k) as [(_ & Ht & _)|(Hge & _ & Hst)];
    [congruence|].
  destruct (is_allowed_config self t k) as [Hm Hw].
  assert (Ha : active_of (snd (is_allowed self t k)) t k = active_of self t k).
  { rewrite (active_of_idem self _ t k [] Hw); [now rewrite app_nil_r|].
    now rewrite app_nil_r. }
  rewrite (is_allowed_unfold (snd (is_allowed self t k))). rewrite Ha, Hm, Hw.
  assert (Hd : <[k := active_of self t k]> (requests (snd (is_allowed self t k)))
               = requests (snd (is_allowed self t k))).
  { apply insert_id. revert Hst. unfold stored.
    rewrite is_allowed_unfold. cbv zeta.
    destruct (_ <? _); [|destruct (py_min _)]; simpl;
      rewrite lookup_insert_eq; simpl; congruence. }
  cbv zeta. rewrite Hd.
  rewrite (set_requests_ext (snd (is_allowed self t k)) self) by assumption.
  rewrite is_allowed_unfold. cbv zeta.
  apply Z.ltb_ge in Hge. rewrite Hge.
  destruct (py_min (active_of self t k)); reflexivity.
Qed.

Lemma denial_idempotent_witness :
  verdict (fst (is_allowed (exhausted 0 "1.2.3.4") 30 "1.2.3.4")) = Some false /\
  is_allowed (snd (is_allowed (exhausted 0 "1.2.3.4") 30 "1.2.3.4")) 30 "1.2.3.4"
  = is_allowed (exhausted 0 "1.2.3.4") 30 "1.2.3.4".
Proof.
  assert (H : verdict (fst (is_allowed (exhausted 0 "1.2.3.4") 30 "1.2.3.4"))
              = Some false) by (vm_compute; reflexivity).
  split; [exact H|]. exact (denial_idempotent _ _ _ H).
Defined.

(** X3. A key whose stored timestamps are all at or before
    [t - time_window] starts over: with a positive limit, [is_allowed] at [t]
    returns [true] with [requests_made = 1] and
    [requests_remaining = max_requests - 1], and the key then holds [t]
    alone. *)
Theorem silent_key_starts_over (self : RateLimiter) (t : Q) (k : string) :
  0 < max_requests self ->
  Forall (fun x => (x <= t - inject_Z (time_window self))%Q) (stored self k) ->
  exists info,
    fst (is_allowed self t k) = Return (true, info) /\
    requests_made info = 1 /\
    requests_remaining info = max_requests self - 1 /\
    retry_after info = None /\
    stored (snd (is_allowed self t k)) k = [t].
Proof.
  intros Hpos Hold.
  assert (He : active_of self t k = []).
  { unfold active_of. destruct (in_window _ _) as [|x l] eqn:E; [reflexivity|].
    assert (Hx : In x (in_window (t - inject_Z (time_window self))%Q (stored self k)))
      by (rewrite E; now left).
    apply in_window_In in Hx. destruct Hx as [Hx Hc].
    rewrite List.Forall_forall in Hold. specialize (Hold _ Hx).
    exfalso. eapply Qlt_not_le; eauto. }
  pose proof (is_allowed_stored self t k) as Hst. revert Hst.
  rewrite is_allowed_unfold. cbv zeta. rewrite He.
  assert (Hlt : (Z.of_nat (length (@nil Q)) <? max_requests self) = true)
    by (apply Z.ltb_lt; simpl; lia).
  rewrite Hlt. simpl. intros Hst. eexists.
  split; [reflexivity|]. simpl. repeat split; try lia. exact Hst.
Qed.

Lemma silent_key_starts_over_witness :
  0 < max_requests (exhausted 0 "1.2.3.4") /\
  Forall (fun x => (x <= 61 - inject_Z (time_window (exhausted 0 "1.2.3.4")))%Q)
         (stored (exhausted 0 "1.2.3.4") "1.2.3.4") /\
  exists info,
    fst (is_allowed (exhausted 0 "1.2.3.4") 61 "1.2.3.4") = Return (true, info) /\
    requests_made info = 1 /\
    requests_remaining info = max_requests (exhausted 0 "1.2.3.4") - 1 /\
    retry_after info = None /\
    stored (snd (is_allowed (exhausted 0 "1.2.3.4") 61 "1.2.3.4")) "1.2.3.4" = [61%Q].
Proof.
  assert (H1 : 0 < max_requests (exhausted 0 "1.2.3.4")) by reflexivity.
  assert (H2 : Forall (fun x => (x <= 61 - inject_Z (time_window (exhausted 0 "1.2.3.4")))%Q)
                      (stored (exhausted 0 "1.2.3.4") "1.2.3.4")).
  { change (stored (exhausted 0 "1.2.3.4") "1.2.3.4") with (repeat 0%Q 5).
    repeat constructor; discriminate. }
  split; [exact H1|]. split; [exact H2|].
  exact (silent_key_starts_over _ _ _ H1 H2).
Defined.

(** X4. The status report and [is_allowed] agree at one instant: the report
    shows a positive [requests_remaining] exactly when [is_allowed] returns
    [true]; an allowed call then reports one more request made and one fewer
    remaining than the status report; a denied call reports the same
    [requests_made], [requests_remaining] and [reset_time] as the status
    report. *)
Theorem status_agrees_with_is_allowed (self : RateLimiter) (t : Q) (k : string) :
  let r := st_rate_limit (fst (rate_limit_status self t k)) in
  (0 < rl_requests_remaining r <-> verdict (fst (is_allowed self t k)) = Some true) /\
  (forall info, fst (is_allowed self t k) = Return (true, info) ->
     requests_made info = rl_requests_made r + 1 /\
     requests_remaining info = rl_requests_remaining r - 1) /\
  (forall info, fst (is_allowed self t k) = Return (false, info) ->
     requests_made info = rl_requests_made r /\
     requests_remaining info = rl_requests_remaining r /\
     reset_time info = rl_reset_time r).
Proof.
  rewrite rate_limit_status_unfold, is_allowed_unfold. cbv zeta. simpl.
  destruct (Z.ltb_spec (Z.of_nat (length (active_of self t k))) (max_requests self))
    as [Hlt|Hge]; simpl.
  - split; [split; [reflexivity | lia]|]. split.
    + intros info [= <-]. simpl. lia.
    + intros info [=].
  - destruct (active_of self t k) as [|x l] eqn:E; simpl in *.
    + split; [split; [lia | discriminate]|]. split; intros info [=].
    + split; [split; [lia | discriminate]|]. split; [intros info [=]|].
      intros info [= <-]. simpl. repeat split; lia.
Qed.

(** X5. No operation ever removes a key from the dictionary, and each one
    leaves the key it was called for present: a status call for a key never
    seen stores the empty list under it. *)
Theorem keys_only_grow (self : RateLimiter) (t : Q) (k : string) :
  is_Some (requests (snd (is_allowed self t k)) !! k) /\
  is_Some (requests (snd (rate_limit_status self t k)) !! k) /\
  (requests self !! k = None ->
   requests (snd (rate_limit_status self t k)) !! k = Some []) /\
  (forall k', is_Some (requests self !! k') ->
     is_Some (requests (snd (is_allowed self t k)) !! k') /\
     is_Some (requests (snd (rate_limit_status self t k)) !! k')).
Proof.
  assert (Hs : forall k', is_Some (requests self !! k') \/ k' = k ->
     is_Some (requests (snd (rate_limit_status self t k)) !! k')).
  { intros k' H. rewrite rate_limit_status_unfold. simpl. unfold getitem.
    destruct (requests self !! k) eqn:E; simpl.
    - destruct H as [H| ->]; [exact H | rewrite E; eauto].
    - destruct (decide (k = k')) as [<-|Hne].
      + rewrite lookup_insert_eq. eauto.
      + rewrite lookup_insert_ne by assumption.
        destruct H as [H| ->]; [exact H | congruence]. }
  assert (Ha : forall k', is_Some (requests self !! k') \/ k' = k ->
     is_Some (requests (snd (is_allowed self t k)) !! k')).
  { intros k' H. destruct (decide (k = k')) as [<-|Hne].
    - rewrite is_allowed_unfold. cbv zeta.
      destruct (_ <? _); [|destruct (py_min _)]; simpl;
        rewrite lookup_insert_eq; eauto.
    - rewrite is_allowed_lookup_ne by assumption.
      destruct H as [H| ->]; [exact H | congruence]. }
  split; [apply Ha; now right|]. split; [apply Hs; now right|]. split.
  - intros Hnone. rewrite rate_limit_status_unfold. simpl. unfold getitem.
    rewrite Hnone. simpl. apply lookup_insert_eq.
  - intros k' H. split; [apply Ha | apply Hs]; now left.
Qed.

(** ** Runs at one instant *)






(** ** Runs under a clock that never runs backwards *)

Lemma serve_Request (t : Q) (k : string) (evs : list event) (self : RateLimiter) :
  serve (Request t k :: evs) self =
  ((t, k, fst (is_allowed self t k)) :: fst (serve evs (snd (is_allowed self t k))),
   snd (serve evs (snd (is_allowed self t k)))).
Proof.
  simpl. destruct (is_allowed self t k) as [r self']. simpl.
  destruct (serve evs self'). reflexivity.
Qed.

Lemma serve_config (evs : list event) (self : RateLimiter) :
  max_requests (snd (serve evs self)) = max_requests self /\
  time_window (snd (serve evs self)) = time_window self.
Proof.
  revert self. induction evs as [|[t k|t k] evs IH]; intros self.
  - now split.
  - rewrite serve_Request. simpl snd.
    destruct (IH (snd (is_allowed self t k))) as [-> ->].
    apply is_allowed_config.
  - simpl. destruct (IH (snd (rate_limit_status self t k))) as [-> ->].
    apply rate_limit_status_config.
Qed.















(** ** Truncation and the status report *)

Lemma py_int_ceiling (x : Q) : (x <= 0)%Q -> py_int x = Qceiling x.
Proof.
  destruct x as [n d]. unfold Qle, py_int, Qceiling, Qfloor. simpl. intros H.
  rewrite <- (Z.opp_involutive n) at 1.
  rewrite Z.quot_opp_l by lia. f_equal. apply Z.quot_div_nonneg; lia.
Qed.






(** ** [check_rate_limit] and [rate_limit_handler] *)

Lemma check_rate_limit_unfold (self : RateLimiter) (t : Q) (k : string) :
  check_rate_limit self t k =
  (match fst (is_allowed self t k) with
   | Raise e => inr (RaisedError e)
   | Return (true, info) => inl info
   | Return (false, info) =>
       inr (RaisedHTTP
          {| exc_status_code := 429;
             exc_detail :=
               {| error := "Rate limit exceeded";
                  message := "Too many requests. Try again in "
                             +:+ py_str_opt (retry_after info) +:+ " seconds.";
                  rate_limit_info := info |};
             exc_headers :=
               [("X-RateLimit-Limit", py_str (max_requests self));
                ("X-RateLimit-Remaining", py_str (requests_remaining info));
                ("X-RateLimit-Reset", py_str (reset_time info));
                ("Retry-After", py_str_opt (retry_after info))] |})
   end,
   snd (is_allowed self t k)).
Proof.
  unfold check_rate_limit. destruct (is_allowed self t k) as [[[[|] info]|e] self'];
    reflexivity.
Qed.

(** [check_rate_limit] leaves the state [is_allowed] leaves; it returns
    the info exactly when [is_allowed] returns [true] with that info, raises
    an [HTTPException] exactly when [is_allowed] returns [false], and lets
    the [ValueError] of [is_allowed] through. *)
Theorem check_rate_limit_outcomes (self : RateLimiter) (t : Q) (k : string) :
  snd (check_rate_limit self t k) = snd (is_allowed self t k) /\
  (forall info, fst (check_rate_limit self t k) = inl info <->
                fst (is_allowed self t k) = Return (true, info)) /\
  ((exists e, fst (check_rate_limit self t k) = inr (RaisedHTTP e)) <->
   verdict (fst (is_allowed self t k)) = Some false) /\
  (forall e, fst (check_rate_limit self t k) = inr (RaisedError e) <->
             fst (is_allowed self t k) = Raise e).
Proof.
  rewrite check_rate_limit_unfold. simpl.
  destruct (fst (is_allowed self t k)) as [[[|] info]|e]; simpl.
  - split; [reflexivity|]. split; [|split].
    + intros i. split; congruence.
    + split; [intros [e [=]] | discriminate].
    + intros e. split; discriminate.
  - split; [reflexivity|]. split; [|split].
    + intros i. split; discriminate.
    + split; [reflexivity | eauto].
    + intros e. split; discriminate.
  - split; [reflexivity|]. split; [|split].
    + intros i. split; discriminate.
    + split; [intros [e' [=]] | discriminate].
    + intros e'. split; congruence.
Qed.

(** X11. The response to a denied request.  When [check_rate_limit] raises
    an [HTTPException], its status code is 429, the one [rate_limit_handler]
    is registered for, and the handler's response has status 429, carries the
    info of the denial in its body, and has the headers
    [X-RateLimit-Limit] = [str(max_requests)], [X-RateLimit-Remaining] = "0",
    [X-RateLimit-Reset] = [str(reset_time)] and [Retry-After] = [str(r)] for
    the info's [retry_after = r], which is at least 1 and is the number of
    seconds the message names. *)
Theorem denied_response (self : RateLimiter) (t : Q) (k : string) (e : HTTPException) :
  fst (check_rate_limit self t k) = inr (RaisedHTTP e) ->
  let resp := rate_limit_handler e in
  let info := rate_limit_info (resp_content resp) in
  exc_status_code e = 429 /\
  resp_status_code resp = 429 /\
  fst (is_allowed self t k) = Return (false, info) /\
  header "X-RateLimit-Limit" (resp_headers resp) = Some (py_str (max_requests self)) /\
  header "X-RateLimit-Remaining" (resp_headers resp) = Some "0" /\
  header "X-RateLimit-Reset" (resp_headers resp) = Some (py_str (reset_time info)) /\
  exists r,
    1 <= r /\
    retry_after info = Some r /\
    header "Retry-After" (resp_headers resp) = Some (py_str r) /\
    message (resp_content resp)
    = "Too many requests. Try again in " +:+ py_str r +:+ " seconds.".
Proof.
  rewrite check_rate_limit_unfold. simpl.
  destruct (fst (is_allowed self t k)) as [[[|] info]|ex] eqn:E; try discriminate.
  intros [= <-]. simpl.
  destruct (is_allowed_denied _ _ _ _ E) as (oldest & _ & _ & ->). simpl.
  repeat split. eexists. repeat split. apply Z.le_max_l.
Qed.

Lemma denied_response_witness :
  let e := {| exc_status_code := 429;
              exc_detail :=
                {| error := "Rate limit exceeded";
                   message := "Too many requests. Try again in 59 seconds.";
                   rate_limit_info :=
                     {| allowed := false; requests_made := 5; requests_remaining := 0;
                        reset_time := 60; retry_after := Some 59 |} |};
              exc_headers :=
                [("X-RateLimit-Limit", "5"); ("X-RateLimit-Remaining", "0");
                 ("X-RateLimit-Reset", "60"); ("Retry-After", "59")] |} in
  fst (check_rate_limit (exhausted (1 # 10) "a") (2 # 5) "a") = inr (RaisedHTTP e) /\
  header "Retry-After" (resp_headers (rate_limit_handler e)) = Some "59" /\
  exists r,
    1 <= r /\
    retry_after (rate_limit_info (resp_content (rate_limit_handler e))) = Some r /\
    header "Retry-After" (resp_headers (rate_limit_handler e)) = Some (py_str r) /\
    message (resp_content (rate_limit_handler e))
    = "Too many requests. Try again in " +:+ py_str r +:+ " seconds.".
Proof.
  intros e.
  assert (H : fst (check_rate_limit (exhausted (1 # 10) "a") (2 # 5) "a")
              = inr (RaisedHTTP e)) by (vm_compute; reflexivity).
  split; [exact H|]. split; [reflexivity|].
  destruct (denied_response _ _ _ _ H) as (_ & _ & _ & _ & _ & _ & Hr).
  exact Hr.
Defined.

(** ** Waiting out a denial *)

Lemma py_int_lt_succ (x : Q) : (x < inject_Z (py_int x + 1))%Q.
Proof.
  destruct (Qlt_le_dec x 0) as [H|H].
  - rewrite py_int_ceiling by lra. rewrite inject_Z_plus.
    pose proof (Qle_ceiling x). change (inject_Z 1) with 1%Q. lra.
  - rewrite py_int_floor by assumption. apply Qlt_floor.
Qed.

(** X12. A denied caller who waits is let in.  If the key holds at most
    [max_requests] timestamps and [is_allowed] at [t] returns [false] with
    [retry_after = r], then the next call for the key, at any instant [t']
    with [t + r + 1 <= t'] or [reset_time + 1 <= t'], returns [true]. *)
Theorem allowed_after_waiting (self : RateLimiter) (t t' : Q) (k : string)
    (info : rate_info) (r : Z) :
  Z.of_nat (length (stored self k)) <= max_requests self ->
  fst (is_allowed self t k) = Return (false, info) ->
  retry_after info = Some r ->
  ((t + inject_Z r + 1 <= t')%Q \/ (inject_Z (reset_time info) + 1 <= t')%Q) ->
  verdict (fst (is_allowed (snd (is_allowed self t k)) t' k)) = Some true.
Proof.
  intros Hlen Hden Hr Hwait.
  destruct (is_allowed_denied _ _ _ _ Hden) as (oldest & Hmin & Hge & ->).
  simpl in Hr, Hwait. injection Hr as <-.
  destruct (py_min_spec _ _ Hmin) as [Hin _].
  pose proof Hin as Hin'. apply in_window_In in Hin'. destruct Hin' as [_ Hcut].
  destruct (is_allowed_config self t k) as [Hm' Hw'].
  assert (Hst : stored (snd (is_allowed self t k)) k = active_of self t k).
  { rewrite is_allowed_stored. apply Z.ltb_ge in Hge. now rewrite Hge. }
  assert (Hold : (oldest <= t' - inject_Z (time_window self))%Q).
  { destruct Hwait as [Hwait|Hwait].
    - pose proof (py_int_lt_succ (oldest + inject_Z (time_window self) - t)%Q) as Hlt.
      rewrite inject_Z_plus in Hlt. change (inject_Z 1) with 1%Q in Hlt.
      pose proof (Z.le_max_r 1
                    (py_int (oldest + inject_Z (time_window self) - t)%Q)) as Hmax.
      rewrite Zle_Qle in Hmax. lra.
    - pose proof (py_int_lt_succ (oldest + inject_Z (time_window self))%Q) as Hlt.
      rewrite inject_Z_plus in Hlt. change (inject_Z 1) with 1%Q in Hlt. lra. }
  pose proof (in_window_drops _ _ _ Hin Hold) as Hdrop.
  pose proof (in_window_length (t - inject_Z (time_window self))%Q (stored self k)) as Hle.
  fold (active_of self t k) in Hle.
  assert (Ha : active_of (snd (is_allowed self t k)) t' k
               = in_window (t' - inject_Z (time_window self))%Q (active_of self t k))
    by (unfold active_of at 1; now rewrite Hst, Hw').
  assert (Hlt : (Z.of_nat (length (in_window (t' - inject_Z (time_window self))%Q
                                             (active_of self t k)))
                 <? max_requests self) = true) by (apply Z.ltb_lt; lia).
  rewrite is_allowed_unfold. cbv zeta. rewrite Ha, Hm', Hlt. reflexivity.
Qed.

Lemma allowed_after_waiting_witness :
  let info := {| allowed := false; requests_made := 5; requests_remaining := 0;
                 reset_time := 60; retry_after := Some 59 |} in
  Z.of_nat (length (stored (exhausted (1 # 2) "a") "a"))
  <= max_requests (exhausted (1 # 2) "a") /\
  fst (is_allowed (exhausted (1 # 2) "a") 1 "a") = Return (false, info) /\
  retry_after info = Some 59 /\
  ((1 + inject_Z 59 + 1 <= 61)%Q \/ (inject_Z (reset_time info) + 1 <= 61)%Q) /\
  verdict (fst (is_allowed (snd (is_allowed (exhausted (1 # 2) "a") 1 "a")) 61 "a"))
  = Some true.
Proof.
  intros info.
  assert (H1 : Z.of_nat (length (stored (exhausted (1 # 2) "a") "a"))
               <= max_requests (exhausted (1 # 2) "a")) by (vm_compute; discriminate).
  assert (H2 : fst (is_allowed (exhausted (1 # 2) "a") 1 "a") = Return (false, info))
    by (vm_compute; reflexivity).
  assert (H3 : retry_after info = Some 59) by reflexivity.
  assert (H4 : (1 + inject_Z 59 + 1 <= 61)%Q \/ (inject_Z (reset_time info) + 1 <= 61)%Q)
    by (left; vm_compute; discriminate).
  split; [exact H1|]. split; [exact H2|]. split; [exact H3|]. split; [exact H4|].
  exact (allowed_after_waiting _ _ _ _ _ _ H1 H2 H3 H4).
Defined.

(** Waiting exactly [retry_after] seconds can be too short, because the
    wait is truncated: five calls at 0.5, a denial at 1 with
    [retry_after = 59], and the call at 60 is denied again. *)
Example retry_after_can_be_short :
  option_map retry_after (info_of (fst (is_allowed (exhausted (1 # 2) "a") 1 "a")))
  = Some (Some 59) /\
  verdict (fst (is_allowed (snd (is_allowed (exhausted (1 # 2) "a") 1 "a")) 60 "a"))
  = Some false.
Proof. split; vm_compute; reflexivity. Qed.

(** ** The states the program reaches *)

(** X13. Every state built by [__init__] and changed only by the two
    operations keeps [max_requests = 5] and [time_window = 60], and in it
    neither [is_allowed] nor [check_rate_limit] ends in an error: the call
    returns a verdict, and [check_rate_limit] returns the info or raises its
    [HTTPException]. *)
Theorem reachable_no_error (self : RateLimiter) (t : Q) (k : string) :
  reachable self ->
  max_requests self = 5 /\
  time_window self = 60 /\
  (exists b info, fst (is_allowed self t k) = Return (b, info)) /\
  (forall e, fst (check_rate_limit self t k) <> inr (RaisedError e)).
Proof.
  intros Hr. destruct (reachable_config self Hr) as [Hm Hw].
  destruct (reachable_never_raises self t k Hr) as (b & info & E).
  split; [exact Hm|]. split; [exact Hw|]. split; [eauto|].
  intros e. rewrite check_rate_limit_unfold, E. simpl.
  destruct b; discriminate.
Qed.

Lemma reachable_no_error_witness :
  reachable (visited 0 "a") /\
  max_requests (visited 0 "a") = 5 /\
  time_window (visited 0 "a") = 60 /\
  (exists b info, fst (is_allowed (visited 0 "a") 1 "a") = Return (b, info)) /\
  (forall e, fst (check_rate_limit (visited 0 "a") 1 "a") <> inr (RaisedError e)).
Proof.
  assert (H : reachable (visited 0 "a"))
    by exact (reach_is_allowed RateLimiter_init 0%Q "a" reach_init).
  split; [exact H|]. exact (reachable_no_error (visited 0 "a") 1%Q "a" H).
Defined.
